(** * KokKokKok authentication API: the Express application of [server.js]

    A shallow embedding of the handlers of [server.js], of the order in
    which it registers them, and of the router of [api/auth/login.js].  A
    handler is a function from the current contents of the [users] relation,
    the values it reads from its environment (clocks, salt) and the request,
    to the HTTP response and the new contents of the relation; [serve] is
    the application as Express dispatches a request through it.

    Conventions of the model:
    - a JavaScript string is a [string] whose characters are UTF-16 code
      units in the range 0..255, so that [String.length] is [.length];
    - JSON numbers of a request body are integers;
    - the relation is a list of rows in the order in which a scan meets
      them: an [INSERT] adds a row at the end, an [UPDATE] writes the new
      version of a row at the end;
    - the store is reachable; a query fails only when PostgreSQL rejects
      its statement;
    - [bcrypt] and [jsonwebtoken] are packages that the repository does not
      contain: they are operations of the classes [Bcrypt] and [Jwt];
    - the declaration of the [users] table is not in the repository: the
      types of its columns are taken from the specification;
    - [api/auth/login.js] exports a router that [server.js] does not mount:
      [router_login] is its handler, outside [serve];
    - CORS and preflight requests, static files and the redirect of [GET /]
      are outside the model. *)

From Stdlib Require Import ZArith List String Ascii Bool Lia DecimalString.
From Stdlib Require DecimalZ.
Import ListNotations.
Open Scope string_scope.
Open Scope Z_scope.

(** ** JavaScript values of a request body *)

Module Js.

Inductive jsval : Type :=
| JUndefined
| JNull
| JBool (b : bool)
| JNum (n : Z)
| JStr (s : string).

(** [!!v]: [undefined], [null], [false], [0] and [''] are falsy. *)
Definition truthy (v : jsval) : bool :=
  match v with
  | JUndefined | JNull => false
  | JBool b => b
  | JNum n => negb (n =? 0)
  | JStr s => negb (s =? EmptyString)%string
  end.

(** [a || b] *)
Definition or (a b : jsval) : jsval := if truthy a then a else b.

(** [a && b] *)
Definition and (a b : jsval) : jsval := if truthy a then b else a.

(** [Number.prototype.toString] on an integer. *)
Definition num_to_string (n : Z) : string :=
  NilEmpty.string_of_int (Z.to_int n).

(** The white space and line terminators that [trim] removes, among the
    code units below 256: TAB, LF, VT, FF, CR, SP, NBSP. *)
Definition is_space (c : ascii) : bool :=
  let k := nat_of_ascii c in
  ((9 <=? k) && (k <=? 13) || (k =? 32) || (k =? 160))%nat.

Fixpoint trimStart (s : string) : string :=
  match s with
  | EmptyString => EmptyString
  | String c s' => if is_space c then trimStart s' else s
  end.

Fixpoint trimEnd (s : string) : string :=
  match s with
  | EmptyString => EmptyString
  | String c s' =>
      let r := trimEnd s' in
      if is_space c && (r =? EmptyString)%string then EmptyString else String c r
  end.

(** [String.prototype.trim] *)
Definition trim (s : string) : string := trimEnd (trimStart s).

(** [s.split(sep)] for a one-character separator. *)
Fixpoint split (sep : ascii) (s : string) : list string :=
  match s with
  | EmptyString => [EmptyString]
  | String c s' =>
      if Ascii.eqb c sep then EmptyString :: split sep s'
      else match split sep s' with
           | [] => [String c EmptyString]
           | h :: t => String c h :: t
           end
  end.

(** [xs[i]] on an array of strings: [undefined] out of range. *)
Definition index (xs : list string) (i : nat) : jsval :=
  match nth_error xs i with
  | Some s => JStr s
  | None => JUndefined
  end.

End Js.

Import Js.

(** ** JSON bodies of responses *)

Module Json.

#[local] Set Warnings "-register-all".

Inductive json : Type :=
| Null
| Bool (b : bool)
| Num (n : Z)
| Str (s : string)
| Date (t : Z)
| Object (fields : list (string * json)).

(** Whether the key [k] occurs in [j], at any depth. *)
Fixpoint has_key (k : string) (j : json) : bool :=
  match j with
  | Object fields =>
      (fix go (fs : list (string * json)) : bool :=
         match fs with
         | [] => false
         | (k', v) :: fs' => (k' =? k)%string || has_key k v || go fs'
         end) fields
  | _ => false
  end.

(** Property read [j.k]; [None] is [undefined]. *)
Definition get (k : string) (j : json) : option json :=
  match j with
  | Object fields =>
      match find (fun kv => (fst kv =? k)%string) fields with
      | Some kv => Some (snd kv)
      | None => None
      end
  | _ => None
  end.

(** [const { k1, k2, ...rest } = j]: the object without the keys [ks]. *)
Definition omit (ks : list string) (j : json) : json :=
  match j with
  | Object fields =>
      Object (filter (fun kv => negb (existsb (String.eqb (fst kv)) ks)) fields)
  | _ => j
  end.

End Json.

Import Json.

(** ** The [users] relation *)

Module Db.

(** A row of [users].  [None] is SQL [NULL]. *)
Record user : Type := mkUser {
  id : Z;
  user_id : option string;
  email : option string;
  name : option string;
  password_hash : option string;
  profile_picture : option string;
  wallet_address : option string;
  nft_tier : option string;
  created_at : Z;
  updated_at : Z
}.

(** The relation, with the next value of the sequence behind [id]. *)
Record store : Type := mkStore {
  rows : list user;
  next_id : Z
}.

(** How node-postgres sends a JavaScript value as a query parameter:
    [null] and [undefined] become [NULL], anything else its text. *)
Definition param (v : jsval) : option string :=
  match v with
  | JUndefined | JNull => None
  | JBool true => Some "true"
  | JBool false => Some "false"
  | JNum n => Some (num_to_string n)
  | JStr s => Some s
  end.

(** [col = $k] on a text column: never true when a side is [NULL]. *)
Definition text_eq (col p : option string) : bool :=
  match col, p with
  | Some a, Some b => (a =? b)%string
  | _, _ => false
  end.

(** [COALESCE($k, col)] *)
Definition coalesce (p col : option string) : option string :=
  match p with
  | Some _ => p
  | None => col
  end.

(** A text column in a row object. *)
Definition text (c : option string) : json :=
  match c with
  | Some s => Str s
  | None => Null
  end.

(** The value of the column named [c] in the row object of [u]. *)
Definition column (c : string) (u : user) : json :=
  if (c =? "id")%string then Num (id u)
  else if (c =? "user_id")%string then text (user_id u)
  else if (c =? "email")%string then text (email u)
  else if (c =? "name")%string then text (name u)
  else if (c =? "password_hash")%string then text (password_hash u)
  else if (c =? "profile_picture")%string then text (profile_picture u)
  else if (c =? "wallet_address")%string then text (wallet_address u)
  else if (c =? "nft_tier")%string then text (nft_tier u)
  else if (c =? "created_at")%string then Date (created_at u)
  else if (c =? "updated_at")%string then Date (updated_at u)
  else Null.

(** The row object of a [SELECT c1, ..., cn] or [RETURNING c1, ..., cn]. *)
Definition select (cols : list string) (u : user) : json :=
  Object (map (fun c => (c, column c u)) cols).

(** A text column as the JavaScript value read from a row object. *)
Definition js (c : option string) : jsval :=
  match c with
  | Some s => JStr s
  | None => JNull
  end.


(** *** Types of the columns *)

(** Modelled from the spec: the declaration of the [users] table is not in
    the repository.  Section 3 of the specification gives [id] as a
    store-assigned numeric identifier, [created_at] and [updated_at] as
    timestamps, and the other columns as strings. *)
Inductive sqltype : Type :=
| Integer
| Text
| Timestamp.

Definition sqltype_eqb (a b : sqltype) : bool :=
  match a, b with
  | Integer, Integer | Text, Text | Timestamp, Timestamp => true
  | _, _ => false
  end.

(** Modelled from the spec: the type of each column of [users], after
    section 3 of the specification. *)
Definition column_type (c : string) : sqltype :=
  if (c =? "id")%string then Integer
  else if (c =? "created_at")%string then Timestamp
  else if (c =? "updated_at")%string then Timestamp
  else Text.

(** A parameter [$k] that a statement compares with, or assigns to, the
    columns [cs].  PostgreSQL gives a parameter one type, that of the first
    column it meets, and accepts the statement only when the parameter
    fits the others: there is no operator between a text column and an
    integer parameter. *)
Definition parameter_typed (cs : list string) : bool :=
  match cs with
  | [] => true
  | c :: cs' =>
      forallb (fun c' => sqltype_eqb (column_type c') (column_type c)) cs'
  end.

(** *** Conditions and assignments *)

(** [WHERE email = $1 OR user_id = $2] *)
Definition email_or_user_id (p1 p2 : option string) (u : user) : bool :=
  text_eq (email u) p1 || text_eq (user_id u) p2.

(** [WHERE id = $1 OR user_id = $1] on one row, [id] being compared
    through its decimal text. *)
Definition id_or_user_id (p : option string) (u : user) : bool :=
  text_eq (Some (num_to_string (id u))) p || text_eq (user_id u) p.

(** [INSERT INTO users (user_id, email, name, password_hash, created_at,
    updated_at) VALUES ($1, $2, $3, $4, NOW(), NOW())]: the row that is
    added, the other columns being [NULL]. *)
Definition inserted (st : store) (now : Z)
    (p1 p2 p3 p4 : option string) : user :=
  mkUser (next_id st) p1 p2 p3 p4 None None None now now.

Definition insert (st : store) (now : Z)
    (p1 p2 p3 p4 : option string) : store :=
  mkStore (rows st ++ [inserted st now p1 p2 p3 p4]) (next_id st + 1).

(** [SET name = COALESCE($1, name),
         profile_picture = COALESCE($2, profile_picture),
         updated_at = NOW()] on one row. *)
Definition set_coalesce (now : Z) (p1 p2 : option string) (u : user) : user :=
  mkUser (id u) (user_id u) (email u) (coalesce p1 (name u))
         (password_hash u) (coalesce p2 (profile_picture u))
         (wallet_address u) (nft_tier u) (created_at u) now.

(** [SET name = $1, updated_at = NOW()] on one row. *)
Definition set_name (now : Z) (p1 : option string) (u : user) : user :=
  mkUser (id u) (user_id u) (email u) p1
         (password_hash u) (profile_picture u)
         (wallet_address u) (nft_tier u) (created_at u) now.

(** [UPDATE users SET ... WHERE ...]: the rows that do not satisfy the
    condition stay where they are; each row that satisfies it gets a new
    version, which a later scan meets after them. *)
Definition update (cond : user -> bool) (assign : user -> user)
    (st : store) : store :=
  mkStore (filter (fun u => negb (cond u)) (rows st)
           ++ map assign (filter cond (rows st)))
          (next_id st).

(** The rows of the [RETURNING] clause of that [UPDATE]. *)
Definition returning (cond : user -> bool) (assign : user -> user)
    (st : store) : list user :=
  map assign (filter cond (rows st)).

End Db.

Import Db.

(** ** Exceptions inside a [try] block *)

Inductive result (A : Type) : Type :=
| Ok (a : A)
| Throw (error : string).

Arguments Ok {A} a.
Arguments Throw {A} error.

Definition bind {A B : Type} (m : result A) (k : A -> result B) : result B :=
  match m with
  | Ok a => k a
  | Throw e => Throw e
  end.

(** [try { m } catch (error) { handler }] *)
Definition try_catch {A : Type} (m : result A) (handler : string -> A) : A :=
  match m with
  | Ok a => a
  | Throw e => handler e
  end.

Notation "x <- m ;; k" := (bind m (fun x => k))
  (at level 61, m at next level, right associativity).

(** [await pool.query(text, values)]: the answer of the store, or the
    exception of a statement that PostgreSQL rejects because one of its
    parameters cannot be typed.  [parameters] lists, for each [$k], the
    columns that the statement puts it against. *)
Definition pool_query {A : Type} (parameters : list (list string))
    (answer : A) : result A :=
  if forallb parameter_typed parameters then Ok answer
  else Throw "operator does not exist: character varying = integer".

(** ** The packages behind the handlers *)

(** [bcrypt.hash(data, saltRounds)], which draws a salt, and
    [bcrypt.compare(data, encrypted)]; both reject their promise on
    arguments they do not accept. *)
Class Bcrypt : Type := {
  bcrypt_hash : jsval -> Z -> string -> result string;
  bcrypt_compare : jsval -> jsval -> result bool
}.

(** What the handlers rely on: a string is hashed to a non-empty string
    that [compare] accepts for that same string. *)
Class BcryptLaws `{Bcrypt} : Prop := {
  hash_string : forall p rounds salt,
    exists h, bcrypt_hash (JStr p) rounds salt = Ok h /\ h <> EmptyString;
  compare_hash : forall p rounds salt h,
    bcrypt_hash (JStr p) rounds salt = Ok h ->
    bcrypt_compare (JStr p) (JStr h) = Ok true
}.

(** [jwt.sign(payload, secret, { expiresIn })] at a given time. *)
Class Jwt : Type := {
  jwt_sign : json -> string -> string -> Z -> result string
}.

(** ** Requests, responses and the environment *)

Module Req.

(** The fields that the handlers destructure from [req.body]. *)
Record body : Type := mkBody {
  email : jsval;
  password : jsval;
  name : jsval;
  user_id : jsval;
  userId : jsval;
  profile_picture : jsval
}.

End Req.

Record response : Type := mkResponse {
  status : Z;
  json_body : json
}.

(** What a handler reads besides the request and the relation. *)
Record env : Type := mkEnv {
  date_now : Z;                    (* Date.now() *)
  sql_now : Z;                     (* NOW() *)
  salt : string;                   (* the salt that bcrypt.hash draws *)
  env_JWT_SECRET : option string   (* process.env.JWT_SECRET *)
}.

(** [{ success: false, message }] *)
Definition failure (message : string) : json :=
  Object [("success", Bool false); ("message", Str message)].

(** [process.env.JWT_SECRET || 'your-secret-key'] *)
Definition JWT_SECRET (e : env) : string :=
  match env_JWT_SECRET e with
  | Some s => if (s =? EmptyString)%string then "your-secret-key" else s
  | None => "your-secret-key"
  end.

(** ** Requests as Express routes them *)

Inductive method : Type := GET | POST | PUT | DELETE.

Definition method_eqb (a b : method) : bool :=
  match a, b with
  | GET, GET | POST, POST | PUT, PUT | DELETE, DELETE => true
  | _, _ => false
  end.

(** The path of a request, as the patterns of [server.js] tell paths
    apart; [ApiUsers userId] is [/api/users/:userId]. *)
Inductive path : Type :=
| ApiAuthLogin
| ApiAuthRegister
| ApiAuthUpdateProfile
| ApiHealth
| ApiUsers (userId : string)
| Elsewhere.

Definition path_eqb (a b : path) : bool :=
  match a, b with
  | ApiAuthLogin, ApiAuthLogin
  | ApiAuthRegister, ApiAuthRegister
  | ApiAuthUpdateProfile, ApiAuthUpdateProfile
  | ApiHealth, ApiHealth
  | Elsewhere, Elsewhere => true
  | ApiUsers u, ApiUsers v => (u =? v)%string
  | _, _ => false
  end.

Definition is_users (p : path) : bool :=
  match p with
  | ApiUsers _ => true
  | _ => false
  end.

(** [req.params.userId] *)
Definition params_userId (p : path) : string :=
  match p with
  | ApiUsers userId => userId
  | _ => EmptyString
  end.

Record request : Type := mkRequest {
  req_method : method;
  req_path : path;
  originalUrl : string;
  req_authorization : option string;   (* req.headers['authorization'] *)
  req_body : Req.body
}.

(** ** The handlers *)

Section Handlers.

Context `{Bcrypt} `{Jwt}.

(** [app.post('/api/auth/login')] of [server.js]. *)
Definition post_login (st : store) (e : env) (b : Req.body)
    : response * store :=
  (try_catch
     (if negb (truthy (Req.email b)) || negb (truthy (Req.password b)) then
        Ok (mkResponse 400 (failure "Email and password are required"))
      else
        match filter (email_or_user_id (param (Req.email b))
                                       (param (Req.email b))) (rows st) with
        | [] => Ok (mkResponse 401 (failure "Invalid email or password"))
        | user :: _ =>
            if negb (truthy (js (password_hash user))) then
              Ok (mkResponse 401 (failure "Account not properly set up"))
            else
              isValidPassword <-
                bcrypt_compare (Req.password b) (js (password_hash user)) ;;
              if negb isValidPassword then
                Ok (mkResponse 401 (failure "Invalid email or password"))
              else
                let safeUser :=
                  omit ["password_hash"; "reset_code"; "reset_code_expires"]
                    (select ["id"; "user_id"; "email"; "name";
                             "password_hash"; "profile_picture";
                             "wallet_address"; "nft_tier";
                             "created_at"; "updated_at"] user) in
                let token :=
                  "jwt_" ++ num_to_string (date_now e) ++ "_"
                         ++ num_to_string (id user) in
                Ok (mkResponse 200
                      (Object [("success", Bool true);
                               ("token", Str token);
                               ("user", safeUser);
                               ("message", Str "Login successful")]))
        end)
     (fun _ => mkResponse 500 (failure "Server error during authentication")),
   st).

(** [router.post('/login')] of [api/auth/login.js]. *)
Definition router_login (st : store) (e : env) (b : Req.body)
    : response * store :=
  (try_catch
     (if negb (truthy (Req.email b)) || negb (truthy (Req.password b)) then
        Ok (mkResponse 400 (failure "Email and password are required"))
      else
        match filter (email_or_user_id (param (Req.email b))
                                       (param (Req.email b))) (rows st) with
        | [] => Ok (mkResponse 401 (failure "Invalid email or password"))
        | user :: _ =>
            isValidPassword <-
              bcrypt_compare (Req.password b) (js (password_hash user)) ;;
            if negb isValidPassword then
              Ok (mkResponse 401 (failure "Invalid email or password"))
            else
              token <-
                jwt_sign (Object [("userId", Num (id user));
                                  ("email", text (email user));
                                  ("user_id", text (user_id user))])
                         (JWT_SECRET e) "24h" (date_now e) ;;
              let userWithoutPassword :=
                omit ["password_hash"]
                  (select ["id"; "user_id"; "email"; "name"; "password_hash"]
                     user) in
              Ok (mkResponse 200
                    (Object [("success", Bool true);
                             ("token", Str token);
                             ("user", userWithoutPassword)]))
        end)
     (fun _ => mkResponse 500 (failure "Server error")),
   st).

(** [app.post('/api/auth/register')] *)
Definition post_register (st : store) (e : env) (b : Req.body)
    : response * store :=
  try_catch
    (if negb (truthy (Req.email b)) || negb (truthy (Req.password b))
        || negb (truthy (Req.name b)) then
       Ok (mkResponse 400 (failure "Email, password, and name are required"),
           st)
     else
       let existingUser :=
         filter (email_or_user_id
                   (param (Req.email b))
                   (param (Js.or (Req.user_id b) (Req.email b))))
                (rows st) in
       if (0 <? List.length existingUser)%nat then
         Ok (mkResponse 409 (failure "User already exists"), st)
       else
         let saltRounds := 10 in
         password_hash <- bcrypt_hash (Req.password b) saltRounds (salt e) ;;
         let p1 := param (Js.or (Req.user_id b)
                                (JStr ("user_" ++ num_to_string (date_now e)))) in
         let p2 := param (Req.email b) in
         let p3 := param (Req.name b) in
         let p4 := Some password_hash in
         let newUser :=
           select ["id"; "user_id"; "email"; "name"; "created_at"]
                  (inserted st (sql_now e) p1 p2 p3 p4) in
         Ok (mkResponse 200
               (Object [("success", Bool true);
                        ("message", Str "Registration successful");
                        ("user", newUser)]),
             insert st (sql_now e) p1 p2 p3 p4))
    (fun _ => (mkResponse 500 (failure "Registration failed"), st)).

(** [app.post('/api/auth/update-profile')] *)
Definition post_update_profile (st : store) (e : env) (b : Req.body)
    : response * store :=
  try_catch
    (if negb (truthy (Req.userId b)) then
       Ok (mkResponse 400 (failure "User ID is required"), st)
     else
       let cond := id_or_user_id (param (Req.userId b)) in
       let assign := set_coalesce (sql_now e) (param (Req.name b))
                                  (param (Req.profile_picture b)) in
       updated <-
         pool_query [["name"]; ["profile_picture"]; ["id"; "user_id"]]
                    (returning cond assign st, update cond assign st) ;;
       match fst updated with
       | [] => Ok (mkResponse 404 (failure "User not found"), snd updated)
       | row :: _ =>
           Ok (mkResponse 200
                 (Object [("success", Bool true);
                          ("message", Str "Profile updated");
                          ("user", select ["id"; "user_id"; "email"; "name";
                                           "profile_picture"; "updated_at"]
                                          row)]),
               snd updated)
       end)
    (fun _ => (mkResponse 500 (failure "Update failed"), st)).

(** [app.get('/api/health')]: [SELECT 1] has no parameter. *)
Definition get_health (st : store) (e : env) : response * store :=
  try_catch
    (_ <- pool_query [] tt ;;
     Ok (mkResponse 200
           (Object [("status", Str "healthy");
                    ("service", Str "KokKokKok Authentication API");
                    ("timestamp", Date (date_now e));
                    ("database", Str "connected");
                    ("endpoints",
                     Object [("login", Str "POST /api/auth/login");
                             ("register", Str "POST /api/auth/register");
                             ("updateProfile",
                              Str "POST /api/auth/update-profile")])]),
         st))
    (fun error => (mkResponse 500
                     (Object [("status", Str "unhealthy");
                              ("database", Str "disconnected");
                              ("error", Str error)]),
                   st)).

(** [app.get('/api/users/:userId')] *)
Definition get_user (st : store) (userId : string) : response * store :=
  try_catch
    (found <- pool_query [["id"; "user_id"]]
                (filter (id_or_user_id (Some userId)) (rows st)) ;;
     match found with
     | [] => Ok (mkResponse 404 (failure "User not found"), st)
     | row :: _ =>
         Ok (mkResponse 200
               (Object [("success", Bool true);
                        ("user", select ["id"; "user_id"; "email"; "name";
                                         "profile_picture"; "wallet_address";
                                         "nft_tier"; "created_at"] row)]),
             st)
     end)
    (fun _ => (mkResponse 500 (failure "Server error"), st)).

(** The handler of [app.use('*')]. *)
Definition not_found (st : store) (originalUrl : string) : response * store :=
  (mkResponse 404
     (Object [("success", Bool false);
              ("message", Str "Endpoint not found");
              ("path", Str originalUrl)]),
   st).

(** [authHeader && authHeader.split(' ')[1]] *)
Definition bearer_token (authHeader : option string) : jsval :=
  match authHeader with
  | None => JUndefined
  | Some h => Js.and (JStr h) (index (split " " h) 1)
  end.

(** The handler of [app.put('/api/auth/update-profile')]. *)
Definition put_update_profile (st : store) (e : env)
    (authorization : option string) (b : Req.body) : response * store :=
  try_catch
    (let token := bearer_token authorization in
     if negb (truthy token) then
       Ok (mkResponse 401 (failure "Authentication token required"), st)
     else if negb (truthy (Req.name b)) then
       Ok (mkResponse 400 (failure "Name is required"), st)
     else
       match Req.name b with
       | JStr name =>
           if (String.length (trim name) =? 0)%nat then
             Ok (mkResponse 400 (failure "Name is required"), st)
           else if (100 <? String.length name)%nat then
             Ok (mkResponse 400
                   (failure "Name must be 100 characters or less"), st)
           else
             let cond := id_or_user_id (param (Req.userId b)) in
             let assign := set_name (sql_now e) (Some (trim name)) in
             updated <-
               pool_query [["name"]; ["id"; "user_id"]]
                          (returning cond assign st, update cond assign st) ;;
             match fst updated with
             | [] => Ok (mkResponse 404 (failure "User not found"),
                         snd updated)
             | row :: _ =>
                 Ok (mkResponse 200
                       (Object [("success", Bool true);
                                ("message", Str "Profile updated successfully");
                                ("user", select ["id"; "user_id"; "email";
                                                 "name"; "profile_picture";
                                                 "updated_at"] row)]),
                     snd updated)
             end
       | _ => Throw "TypeError: name.trim is not a function"
       end)
    (fun _ => (mkResponse 500 (failure "Server error updating profile"), st)).

(** *** The application *)

(** A layer of the application: [app.METHOD(path, handler)], or
    [app.use(path, handler)] when [verb] is [None]. *)
Record layer : Type := mkLayer {
  verb : option method;
  mount : path -> bool;
  handler : store -> env -> request -> response * store
}.

(** The stack of [app]: its layers in the order in which [server.js]
    registers them, the
    routes of lines 51, 129, 184, 228 and 254, the catch-all of line
    293, and then the route of line 311. *)
Definition app_stack : list layer :=
  [ mkLayer (Some POST) (path_eqb ApiAuthLogin)
      (fun st e r => post_login st e (req_body r));
    mkLayer (Some POST) (path_eqb ApiAuthRegister)
      (fun st e r => post_register st e (req_body r));
    mkLayer (Some POST) (path_eqb ApiAuthUpdateProfile)
      (fun st e r => post_update_profile st e (req_body r));
    mkLayer (Some GET) (path_eqb ApiHealth)
      (fun st e r => get_health st e);
    mkLayer (Some GET) is_users
      (fun st e r => get_user st (params_userId (req_path r)));
    mkLayer None (fun _ => true)
      (fun st e r => not_found st (originalUrl r));
    mkLayer (Some PUT) (path_eqb ApiAuthUpdateProfile)
      (fun st e r => put_update_profile st e (req_authorization r)
                                        (req_body r)) ].

(** Whether a layer takes a request. *)
Definition accepts (l : layer) (r : request) : bool :=
  match verb l with
  | None => true
  | Some m => method_eqb m (req_method r)
  end && mount l (req_path r).

(** The first layer that takes the request answers it; none of the
    handlers calls [next()]. *)
Fixpoint dispatch (layers : list layer) (st : store) (e : env) (r : request)
    : response * store :=
  match layers with
  | [] => (mkResponse 404 Null, st)
  | l :: rest =>
      if accepts l r then handler l st e r else dispatch rest st e r
  end.

(** The application as served. *)
Definition serve (st : store) (e : env) (r : request) : response * store :=
  dispatch app_stack st e r.

End Handlers.

(** The first row that the login query yields for the [email] field, the
    [rows[0]] of both login handlers. *)
Definition login_row (st : store) (b : Req.body) : option user :=
  hd_error (filter (email_or_user_id (param (Req.email b))
                                     (param (Req.email b))) (rows st)).

(** The columns that no statement of the handlers assigns once a row is
    stored: an [UPDATE] sets only [name], [profile_picture], [updated_at]. *)
Definition same_identity (u u' : user) : Prop :=
  id u' = id u /\ user_id u' = user_id u /\ email u' = email u /\
  password_hash u' = password_hash u /\
  wallet_address u' = wallet_address u /\ nft_tier u' = nft_tier u /\
  created_at u' = created_at u.

(** ** Sequences of statements *)

(** One writing statement of the handlers, executed on the relation: the
    [INSERT] of line 158, the [UPDATE] of line 195 or that of line 345,
    with any parameters.  Requests that overlap are sequences of such
    statements, in any interleaving. *)
Inductive written : store -> store -> Prop :=
| written_insert st now p1 p2 p3 p4 :
    written st (insert st now p1 p2 p3 p4)
| written_update_profile st now p1 p2 p3 :
    written st (update (id_or_user_id p3) (set_coalesce now p1 p2) st)
| written_update_name st now p1 p2 :
    written st (update (id_or_user_id p2) (set_name now p1) st).

Inductive statements : store -> store -> Prop :=
| statements_none st : statements st st
| statements_more st st1 st2 :
    statements st st1 -> written st1 st2 -> statements st st2.

(** ** Reference implementations of the packages

    Executable stand-ins, used to run the handlers on concrete requests. *)

Module Reference.

(** A hash that only tags its data, with the argument checks of the
    [bcrypt] package: both functions reject anything but strings. *)
Definition bcrypt : Bcrypt :=
  {| bcrypt_hash := fun data rounds salt =>
       match data with
       | JStr p => Ok ("$2b$" ++ p)
       | _ => Throw "data must be a string or Buffer"
       end;
     bcrypt_compare := fun data encrypted =>
       match data, encrypted with
       | JStr p, JStr h => Ok (h =? "$2b$" ++ p)%string
       | _, _ => Throw "data and hash arguments required"
       end |}.

Definition jwt : Jwt :=
  {| jwt_sign := fun payload secret expiresIn now =>
       Ok ("jwt." ++ secret ++ "." ++ num_to_string now) |}.

Definition env0 : env := mkEnv 1700000000000 1700000000 "salt" None.
Definition env1 : env := mkEnv 1700000060000 1700000060 "salt" None.

Definition ann : user :=
  mkUser 1 (Some "ann") (Some "a@x.com") (Some "Ann")
         (Some "$2b$secret123") None None None 1600000000 1600000000.

(** A row that never had a password set. *)
Definition bob : user :=
  mkUser 2 (Some "bob") (Some "b@x.com") (Some "Bob")
         None None None None 1600000001 1600000001.

Definition store0 : store := mkStore [ann; bob] 3.

(** A row whose user_id has the shape that registration makes up. *)
Definition early : user :=
  mkUser 3 (Some "user_1700000000000") (Some "e@x.com") (Some "Eve")
         (Some "$2b$hunter2") None None None 1600000002 1600000002.

Definition store1 : store := mkStore [ann; bob; early] 4.

Fixpoint replicate (n : nat) (c : ascii) : string :=
  match n with
  | O => EmptyString
  | S n' => String c (replicate n' c)
  end.

(** 101 letters. *)
Definition long_name : string := replicate 101 "a".

(** 99 letters followed by two spaces. *)
Definition padded_name : string := replicate 99 "a" ++ "  ".

Definition login_body (email password : string) : Req.body :=
  Req.mkBody (JStr email) (JStr password)
             JUndefined JUndefined JUndefined JUndefined.

Definition register_body (email password name : string) (user_id : jsval)
    : Req.body :=
  Req.mkBody (JStr email) (JStr password) (JStr name) user_id
             JUndefined JUndefined.

Definition name_body (userId name : string) : Req.body :=
  Req.mkBody JUndefined JUndefined (JStr name) JUndefined (JStr userId)
             JUndefined.



(** A request for [/api/auth/update-profile]. *)
Definition update_profile_request (m : method)
    (authorization : option string) (b : Req.body) : request :=
  mkRequest m ApiAuthUpdateProfile "/api/auth/update-profile" authorization b.

End Reference.

(** * Properties *)

(** ** Keys of row objects *)

Lemma has_key_text (k : string) (c : option string) :
  has_key k (text c) = false.
Proof. destruct c; reflexivity. Qed.

Lemma has_key_column (k c : string) (u : user) :
  has_key k (column c u) = false.
Proof.
  unfold column.
  repeat match goal with
         | |- context [if ?b then _ else _] => destruct b
         end; auto using has_key_text.
Qed.

Lemma has_key_select (k : string) (cols : list string) (u : user) :
  has_key k (select cols u) = existsb (fun c => (c =? k)%string) cols.
Proof.
  unfold select. cbn [has_key].
  induction cols as [|c cols IH]; cbn [map existsb]; [reflexivity|].
  rewrite has_key_column, orb_false_r, IH. reflexivity.
Qed.

Lemma omit_select (ks cols : list string) (u : user) :
  omit ks (select cols u)
  = select (filter (fun c => negb (existsb (String.eqb c) ks)) cols) u.
Proof.
  unfold select, omit. f_equal.
  induction cols as [|c cols IH]; cbn [map filter fst]; [reflexivity|].
  destruct (negb (existsb (String.eqb c) ks)); cbn [map]; now rewrite IH.
Qed.

Lemma has_key_failure (k message : string) :
  has_key k (failure message) = ((k =? "success") || (k =? "message"))%string.
Proof.
  unfold failure. cbn [has_key].
  rewrite (String.eqb_sym "success" k), (String.eqb_sym "message" k).
  now rewrite !orb_false_r.
Qed.

(** ** Responses never carry the hash *)

Section NoHash.

Context `{Bcrypt} `{Jwt}.

Ltac branches :=
  repeat (cbn [fst json_body try_catch bind];
          match goal with
          | |- context [match ?x with _ => _ end] => destruct x
          | |- context [bind ?m _] => destruct m
          end).

Ltac no_key :=
  cbn [fst json_body try_catch bind];
  first [ apply has_key_failure
        | cbn [has_key]; rewrite ?omit_select, ?has_key_select; reflexivity ].

Lemma post_login_no_hash st e b :
  has_key "password_hash" (json_body (fst (post_login st e b))) = false.
Proof. unfold post_login; branches; no_key. Qed.

Lemma router_login_no_hash st e b :
  has_key "password_hash" (json_body (fst (router_login st e b))) = false.
Proof. unfold router_login; branches; no_key. Qed.

Lemma post_register_no_hash st e b :
  has_key "password_hash" (json_body (fst (post_register st e b))) = false.
Proof. unfold post_register; branches; no_key. Qed.

Lemma post_update_profile_no_hash st e b :
  has_key "password_hash" (json_body (fst (post_update_profile st e b))) = false.
Proof. unfold post_update_profile; branches; no_key. Qed.

Lemma get_user_no_hash st userId :
  has_key "password_hash" (json_body (fst (get_user st userId))) = false.
Proof. unfold get_user; branches; no_key. Qed.

Lemma put_update_profile_no_hash st e authorization b :
  has_key "password_hash"
          (json_body (fst (put_update_profile st e authorization b))) = false.
Proof. unfold put_update_profile; branches; no_key. Qed.

(** C1: whatever the stored rows and the request, the JSON body that
    login (both routers), register, get-user-by-id and update-profile
    (POST and PUT) answer with has no [password_hash] key, at any depth,
    on success as on failure. *)
Theorem no_response_has_password_hash :
  forall (st : store) (e : env) (b : Req.body)
         (userId : string) (authorization : option string),
    has_key "password_hash" (json_body (fst (post_login st e b))) = false /\
    has_key "password_hash" (json_body (fst (router_login st e b))) = false /\
    has_key "password_hash" (json_body (fst (post_register st e b))) = false /\
    has_key "password_hash" (json_body (fst (get_user st userId))) = false /\
    has_key "password_hash"
            (json_body (fst (post_update_profile st e b))) = false /\
    has_key "password_hash"
            (json_body (fst (put_update_profile st e authorization b))) = false.
Proof.
  intros. repeat split;
    auto using post_login_no_hash, router_login_no_hash,
      post_register_no_hash, get_user_no_hash,
      post_update_profile_no_hash, put_update_profile_no_hash.
Qed.

End NoHash.

(** ** Queries over the relation *)

Lemma filter_none {A : Type} (f : A -> bool) (l : list A) :
  (forall x, In x l -> f x = false) -> filter f l = [].
Proof.
  induction l as [|a l IH]; intros Hf; cbn [filter]; [reflexivity|].
  rewrite (Hf a (or_introl eq_refl)). apply IH. intros x Hx. apply Hf. now right.
Qed.

Lemma filter_some {A : Type} (f : A -> bool) (l : list A) (x : A) :
  In x l -> f x = true -> filter f l <> [].
Proof.
  intros Hin Hfx Hnil.
  assert (Hx : In x (filter f l)) by (apply filter_In; auto).
  rewrite Hnil in Hx. destruct Hx.
Qed.

Lemma text_eq_true (col p : option string) :
  text_eq col p = true <-> col = p /\ p <> None.
Proof.
  destruct col as [a|], p as [c|]; cbn [text_eq];
    try (split; [discriminate | intros [E N]; congruence]).
  rewrite String.eqb_eq. split.
  - intros ->. split; congruence.
  - intros [E _]. congruence.
Qed.

Lemma text_eq_differ (col p : option string) :
  col <> p -> text_eq col p = false.
Proof.
  intros N. destruct (text_eq col p) eqn:E; [|reflexivity].
  apply text_eq_true in E. tauto.
Qed.

Lemma text_eq_same (s : string) : text_eq (Some s) (Some s) = true.
Proof. apply String.eqb_refl. Qed.

Lemma truthy_param (v : jsval) :
  truthy v = true -> exists s, param v = Some s.
Proof.
  destruct v as [| |[]| |]; cbn; intros E; try discriminate; eauto.
Qed.

Lemma truthy_JStr (s : string) : truthy (JStr s) = true <-> s <> EmptyString.
Proof.
  cbn. rewrite negb_true_iff. split.
  - intros E ->. discriminate.
  - intros N. apply String.eqb_neq. exact N.
Qed.

(** ** Registration followed by login *)

Section RegisterLogin.

Context `{Bcrypt} `{Jwt} `{!BcryptLaws}.

(** The existence check of registration lets a payload through exactly
    when no stored row has its email, or the [user_id] it checks. *)
Lemma post_register_accepts st e b h :
  truthy (Req.email b) = true ->
  truthy (Req.password b) = true ->
  truthy (Req.name b) = true ->
  (forall u, In u (rows st) ->
     email_or_user_id (param (Req.email b))
                      (param (Js.or (Req.user_id b) (Req.email b))) u = false) ->
  bcrypt_hash (Req.password b) 10 (salt e) = Ok h ->
  post_register st e b
  = (mkResponse 200
       (Object [("success", Bool true);
                ("message", Str "Registration successful");
                ("user",
                 select ["id"; "user_id"; "email"; "name"; "created_at"]
                   (inserted st (sql_now e)
                      (param (Js.or (Req.user_id b)
                                (JStr ("user_" ++ num_to_string (date_now e)))))
                      (param (Req.email b)) (param (Req.name b)) (Some h)))]),
     insert st (sql_now e)
       (param (Js.or (Req.user_id b)
                 (JStr ("user_" ++ num_to_string (date_now e)))))
       (param (Req.email b)) (param (Req.name b)) (Some h)).
Proof.
  intros He Hp Hn Hfree Hh. unfold post_register.
  rewrite He, Hp, Hn. cbn [negb orb].
  rewrite (filter_none _ _ Hfree). cbn [List.length Nat.ltb Nat.leb].
  rewrite Hh. reflexivity.
Qed.

(** C2, amended: a payload with a string password and a name, whose email
    is neither the email nor the user_id of a stored row and whose user_id,
    when supplied, is not the user_id of a stored row, registers with 200;
    a login with the same email and password then answers 200 with the
    token made of the clock and of the id of the new row. *)
Theorem register_then_login :
  forall (st : store) (e e' : env) (b b' : Req.body) (p : string),
    truthy (Req.email b) = true ->
    Req.password b = JStr p -> p <> EmptyString ->
    truthy (Req.name b) = true ->
    (forall u, In u (rows st) -> email u <> param (Req.email b)) ->
    (forall u, In u (rows st) -> user_id u <> param (Req.email b)) ->
    (forall u, In u (rows st) -> truthy (Req.user_id b) = true ->
               user_id u <> param (Req.user_id b)) ->
    Req.email b' = Req.email b ->
    Req.password b' = Req.password b ->
    status (fst (post_register st e b)) = 200 /\
    status (fst (post_login (snd (post_register st e b)) e' b')) = 200 /\
    get "token" (json_body (fst (post_login (snd (post_register st e b)) e' b')))
    = Some (Str ("jwt_" ++ num_to_string (date_now e') ++ "_"
                        ++ num_to_string (next_id st))).
Proof.
  intros st e e' b b' p He Hp Hpne Hn Hemail Huid Hsupplied Eb Pb.
  destruct (hash_string p 10 (salt e)) as [h [Hh Hhne]].
  assert (Hpt : truthy (Req.password b) = true)
    by (rewrite Hp; now apply truthy_JStr).
  assert (Hfree : forall u, In u (rows st) ->
            email_or_user_id (param (Req.email b))
              (param (Js.or (Req.user_id b) (Req.email b))) u = false).
  { intros u Hu. unfold email_or_user_id, Js.or.
    rewrite (text_eq_differ _ _ (Hemail u Hu)). cbn [orb].
    destruct (truthy (Req.user_id b)) eqn:Et; apply text_eq_differ; auto. }
  rewrite <- Hp in Hh.
  rewrite (post_register_accepts st e b h He Hpt Hn Hfree Hh).
  cbn [fst snd status]. split; [reflexivity|].
  destruct (truthy_param _ He) as [em Hem].
  match goal with
  | |- context [post_login ?s e' b'] =>
      assert (Hlogin : exists safeUser,
                fst (post_login s e' b')
                = mkResponse 200
                    (Object [("success", Bool true);
                             ("token",
                              Str ("jwt_" ++ num_to_string (date_now e') ++ "_"
                                          ++ num_to_string (next_id st)));
                             ("user", safeUser);
                             ("message", Str "Login successful")]))
  end.
  { unfold post_login. rewrite Eb, Pb, He, Hpt. cbn [negb orb].
    unfold insert. cbn [rows]. rewrite filter_app.
    rewrite (filter_none _ (rows st)).
    2:{ intros u Hu. unfold email_or_user_id.
        rewrite (text_eq_differ _ _ (Hemail u Hu)),
                (text_eq_differ _ _ (Huid u Hu)). reflexivity. }
    cbn [app filter]. unfold email_or_user_id, inserted.
    cbn [email user_id password_hash id js].
    rewrite Hem, text_eq_same. cbn [orb password_hash id js].
    assert (Hht : truthy (JStr h) = true) by now apply truthy_JStr.
    rewrite Hht. cbn [negb].
    rewrite Hp in Hh |- *. rewrite (compare_hash p 10 (salt e) h Hh).
    cbn [bind negb try_catch fst]. eexists. reflexivity. }
  destruct Hlogin as [safeUser ->]. split; reflexivity.
Qed.

End RegisterLogin.

(** ** The reference packages satisfy the laws *)

Lemma reference_bcrypt_laws : @BcryptLaws Reference.bcrypt.
Proof.
  split.
  - intros p rounds salt. exists ("$2b$" ++ p)%string. split; [reflexivity|].
    discriminate.
  - intros p rounds salt h E. cbn in E. injection E as <-.
    cbn. now rewrite String.eqb_refl.
Qed.

(** ** Login: denied access *)

Section Login.

Context `{Bcrypt} `{Jwt}.

Lemma login_row_filter st b user :
  login_row st b = Some user ->
  exists rest,
    filter (email_or_user_id (param (Req.email b)) (param (Req.email b)))
           (rows st) = user :: rest.
Proof.
  unfold login_row. destruct (filter _ _) as [|u rest]; cbn; [discriminate|].
  intros [= ->]. eauto.
Qed.

(** [server.js] answers a row without a hash before any verification:
    the answer does not depend on [bcrypt]. *)
Lemma post_login_absent_hash st e b user :
  truthy (Req.email b) = true ->
  truthy (Req.password b) = true ->
  login_row st b = Some user ->
  truthy (js (password_hash user)) = false ->
  post_login st e b
  = (mkResponse 401 (failure "Account not properly set up"), st).
Proof.
  intros He Hp Hrow Hh. destruct (login_row_filter _ _ _ Hrow) as [rest Hf].
  unfold post_login. rewrite He, Hp, Hf, Hh. reflexivity.
Qed.

(** [api/auth/login.js] has no message for a row without a hash. *)
Lemma router_login_message st e b :
  get "message" (json_body (fst (router_login st e b)))
  <> Some (Str "Account not properly set up").
Proof.
  unfold router_login.
  repeat (cbn [fst json_body try_catch bind];
          match goal with
          | |- context [match ?x with _ => _ end] => destruct x
          | |- context [bind ?m _] => destruct m
          end);
    cbn; discriminate.
Qed.

(** C3: on a request that matches a row whose hash is absent, [server.js]
    answers 401 'Account not properly set up' without verifying, while
    [api/auth/login.js] hands the absent hash to [bcrypt.compare]: it never
    answers with that message, and answers 500 'Server error' when the
    verification throws. *)
Theorem login_absent_hash_paths_differ :
  forall (st : store) (e : env) (b : Req.body) (user : user),
    truthy (Req.email b) = true ->
    truthy (Req.password b) = true ->
    login_row st b = Some user ->
    truthy (js (password_hash user)) = false ->
    post_login st e b
    = (mkResponse 401 (failure "Account not properly set up"), st) /\
    get "message" (json_body (fst (router_login st e b)))
    <> Some (Str "Account not properly set up") /\
    (forall error,
       bcrypt_compare (Req.password b) (js (password_hash user)) = Throw error ->
       router_login st e b = (mkResponse 500 (failure "Server error"), st)).
Proof.
  intros st e b user He Hp Hrow Hh. split; [|split].
  - now apply post_login_absent_hash with (user := user).
  - apply router_login_message.
  - intros error Hc. destruct (login_row_filter _ _ _ Hrow) as [rest Hf].
    unfold router_login. rewrite He, Hp, Hf, Hc. reflexivity.
Qed.

(** C4, amended: when the password is a string that [bcrypt.compare] does
    not accept for the stored hash of the first row matching the email,
    both login handlers answer 401 with [success: false] and a body without
    a [token] key, and leave the relation as it was. *)
Theorem wrong_string_password_denied :
  forall (st : store) (e : env) (b : Req.body) (user : user)
         (hash p : string),
    truthy (Req.email b) = true ->
    Req.password b = JStr p ->
    p <> EmptyString ->
    login_row st b = Some user ->
    password_hash user = Some hash ->
    bcrypt_compare (JStr p) (JStr hash) = Ok false ->
    (status (fst (post_login st e b)) = 401 /\
     get "success" (json_body (fst (post_login st e b))) = Some (Bool false) /\
     has_key "token" (json_body (fst (post_login st e b))) = false /\
     snd (post_login st e b) = st) /\
    (status (fst (router_login st e b)) = 401 /\
     get "success" (json_body (fst (router_login st e b))) = Some (Bool false) /\
     has_key "token" (json_body (fst (router_login st e b))) = false /\
     snd (router_login st e b) = st).
Proof.
  intros st e b user hash p He Hp Hne Hrow Hhash Hc.
  destruct (login_row_filter _ _ _ Hrow) as [rest Hf].
  assert (Hpt : truthy (JStr p) = true) by now apply truthy_JStr.
  unfold post_login, router_login.
  rewrite He, Hp, Hpt, Hf, Hhash. cbn [negb orb js]. rewrite Hc.
  destruct (truthy (JStr hash)); cbn; repeat split.
Qed.

End Login.

(** ** Registration without a user_id *)

Section Registration.

Context `{Bcrypt}.

Lemma post_register_conflict st e b u :
  truthy (Req.email b) = true ->
  truthy (Req.password b) = true ->
  truthy (Req.name b) = true ->
  In u (rows st) ->
  email_or_user_id (param (Req.email b))
                   (param (Js.or (Req.user_id b) (Req.email b))) u = true ->
  post_register st e b
  = (mkResponse 409 (failure "User already exists"), st).
Proof.
  intros He Hp Hn Hu Hm. unfold post_register.
  rewrite He, Hp, Hn. cbn [negb orb].
  destruct (filter _ (rows st)) as [|x xs] eqn:Hf; [|reflexivity].
  exfalso. now apply (filter_some _ _ u Hu Hm).
Qed.

(** C10: registration of a payload without a user_id.  The existence
    check looks for a row whose email or whose user_id is the email of the
    payload: such a row gives 409 and leaves the relation unchanged.
    Without one, the row that is appended has for user_id the text 'user_'
    followed by [Date.now()], made by the handler, whether or not a stored
    row already has that user_id. *)
Theorem register_without_user_id :
  forall (st : store) (e : env) (b : Req.body),
    truthy (Req.user_id b) = false ->
    truthy (Req.email b) = true ->
    truthy (Req.password b) = true ->
    truthy (Req.name b) = true ->
    let r := fst (post_register st e b) in
    let st' := snd (post_register st e b) in
    ((exists u, In u (rows st) /\
                (email u = param (Req.email b) \/
                 user_id u = param (Req.email b))) ->
     r = mkResponse 409 (failure "User already exists") /\ st' = st) /\
    ((forall u, In u (rows st) ->
                email u <> param (Req.email b) /\
                user_id u <> param (Req.email b)) ->
     forall h, bcrypt_hash (Req.password b) 10 (salt e) = Ok h ->
       status r = 200 /\
       st' = mkStore
               (rows st ++
                [mkUser (next_id st)
                        (Some ("user_" ++ num_to_string (date_now e)))
                        (param (Req.email b)) (param (Req.name b)) (Some h)
                        None None None (sql_now e) (sql_now e)])
               (next_id st + 1)).
Proof.
  intros st e b Hnone He Hp Hn r st'. subst r st'.
  destruct (truthy_param _ He) as [em Hem].
  assert (Hor : Js.or (Req.user_id b) (Req.email b) = Req.email b)
    by (unfold Js.or; now rewrite Hnone).
  split.
  - intros (u & Hu & Hm).
    rewrite (post_register_conflict st e b u He Hp Hn Hu); [now split|].
    rewrite Hor. unfold email_or_user_id. apply orb_true_iff.
    destruct Hm as [Hm|Hm]; [left|right]; apply text_eq_true;
      (split; [exact Hm | rewrite Hem; discriminate]).
  - intros Hfree h Hh.
    rewrite (post_register_accepts st e b h He Hp Hn); [|
      | exact Hh].
    + unfold Js.or. rewrite Hnone. split; reflexivity.
    + intros u Hu. rewrite Hor. unfold email_or_user_id.
      destruct (Hfree u Hu) as [H1 H2].
      now rewrite (text_eq_differ _ _ H1), (text_eq_differ _ _ H2).
Qed.

End Registration.

(** ** Login: who gets a token *)

Section LoginOutcome.

Context `{Bcrypt} `{Jwt}.

Lemma login_row_none st b :
  login_row st b = None ->
  filter (email_or_user_id (param (Req.email b)) (param (Req.email b)))
         (rows st) = [].
Proof.
  unfold login_row. destruct (filter _ _); cbn; [reflexivity|discriminate].
Qed.

Ltac login_cases :=
  repeat (cbn [fst snd status json_body try_catch bind negb orb hd_error];
          match goal with
          | |- context [match ?x with _ => _ end] => destruct x eqn:?
          | |- context [bind ?m _] => destruct m eqn:?
          end).

(** X1: [server.js] answers a login with 200 exactly when both fields are
    supplied, the first row matching the email has a non-empty hash, and
    [bcrypt.compare] returns true for the password and that hash.  On both
    login handlers a body with a [token] key is sent only after
    [bcrypt.compare] returned true for that row. *)
Theorem token_requires_verification :
  forall (st : store) (e : env) (b : Req.body),
    (status (fst (post_login st e b)) = 200 <->
     truthy (Req.email b) = true /\ truthy (Req.password b) = true /\
     exists user,
       login_row st b = Some user /\
       truthy (js (password_hash user)) = true /\
       bcrypt_compare (Req.password b) (js (password_hash user)) = Ok true) /\
    (has_key "token" (json_body (fst (post_login st e b))) = true ->
     exists user,
       login_row st b = Some user /\
       bcrypt_compare (Req.password b) (js (password_hash user)) = Ok true) /\
    (has_key "token" (json_body (fst (router_login st e b))) = true ->
     exists user,
       login_row st b = Some user /\
       bcrypt_compare (Req.password b) (js (password_hash user)) = Ok true).
Proof.
  intros st e b. unfold post_login, router_login, login_row.
  split; [|split].
  - destruct (truthy (Req.email b)), (truthy (Req.password b));
      cbn [negb orb fst status try_catch];
      try (split; [discriminate | intros (? & ? & _); discriminate]).
    destruct (filter _ (rows st)) as [|user rest];
      cbn [fst status try_catch hd_error].
    { split; [discriminate|]. intros (_ & _ & u & Hu & _). discriminate. }
    destruct (truthy (js (password_hash user))) eqn:Hh;
      cbn [negb fst status try_catch].
    { destruct (bcrypt_compare _ _) as [[|]|err] eqn:Hc;
        cbn [bind negb fst status try_catch]; split;
        try discriminate;
        try (intros (_ & _ & u & [= <-] & _ & Hc'); congruence).
      intros _. repeat split. exists user. repeat split; assumption. }
    split; [discriminate|].
    intros (_ & _ & u & [= <-] & Hh' & _). congruence.
  - login_cases; cbn; try discriminate.
    intros _. eexists. split; [reflexivity|].
    match goal with
    | E : bcrypt_compare _ _ = Ok ?v, N : negb ?v = false |- _ =>
        destruct v; [exact E | discriminate N]
    end.
  - login_cases; cbn; try discriminate.
    intros _. eexists. split; [reflexivity|].
    match goal with
    | E : bcrypt_compare _ _ = Ok ?v, N : negb ?v = false |- _ =>
        destruct v; [exact E | discriminate N]
    end.
Qed.

(** X2: a login for an email that matches no row is answered exactly like
    a login with a password that [bcrypt.compare] refuses for the non-empty
    hash of the matching row: same status and same body, on both
    handlers. *)
Theorem unknown_email_like_wrong_password :
  forall (st : store) (e : env) (b1 b2 : Req.body) (user : user)
         (hash : string),
    truthy (Req.email b1) = true -> truthy (Req.password b1) = true ->
    login_row st b1 = None ->
    truthy (Req.email b2) = true -> truthy (Req.password b2) = true ->
    login_row st b2 = Some user ->
    password_hash user = Some hash -> hash <> EmptyString ->
    bcrypt_compare (Req.password b2) (JStr hash) = Ok false ->
    fst (post_login st e b1) = fst (post_login st e b2) /\
    fst (router_login st e b1) = fst (router_login st e b2).
Proof.
  intros st e b1 b2 user hash He1 Hp1 Hnone He2 Hp2 Hrow Hh Hne Hc.
  destruct (login_row_filter _ _ _ Hrow) as [rest Hf].
  pose proof (login_row_none _ _ Hnone) as Hf1.
  assert (Ht : truthy (JStr hash) = true) by now apply truthy_JStr.
  unfold post_login, router_login.
  rewrite He1, Hp1, He2, Hp2, Hf, Hf1, Hh. cbn [negb orb js].
  rewrite Ht, Hc. split; reflexivity.
Qed.

(** X3: the two login handlers answer every request with the same status,
    as long as the row that the email matches, if any, has a non-empty hash
    and [jwt.sign] does not throw. *)
Theorem login_handlers_agree :
  forall (st : store) (e : env) (b : Req.body),
    (forall user, login_row st b = Some user ->
                  truthy (js (password_hash user)) = true) ->
    (forall payload, exists token,
        jwt_sign payload (JWT_SECRET e) "24h" (date_now e) = Ok token) ->
    status (fst (post_login st e b)) = status (fst (router_login st e b)).
Proof.
  intros st e b Hhash Hsign. unfold post_login, router_login.
  destruct (negb (truthy (Req.email b)) || negb (truthy (Req.password b)));
    [reflexivity|].
  unfold login_row in Hhash.
  destruct (filter _ (rows st)) as [|user rest]; [reflexivity|].
  rewrite (Hhash user eq_refl). cbn [negb].
  destruct (bcrypt_compare _ _) as [[|]|err]; cbn [bind negb]; try reflexivity.
  match goal with
  | |- context [jwt_sign ?p _ _ _] => destruct (Hsign p) as [token ->]
  end.
  reflexivity.
Qed.

End LoginOutcome.

(** ** Registration: what it stores *)

Lemma filter_nil_inv {A : Type} (f : A -> bool) (l : list A) :
  filter f l = [] -> forall x, In x l -> f x = false.
Proof.
  intros Hnil x Hx. destruct (f x) eqn:E; [|reflexivity].
  exfalso. now apply (filter_some f l x Hx E).
Qed.

Lemma num_to_string_inj (n m : Z) :
  num_to_string n = num_to_string m -> n = m.
Proof.
  unfold num_to_string. intros E. apply DecimalZ.to_int_inj.
  assert (S : Some (Z.to_int n) = Some (Z.to_int m))
    by (rewrite <- !NilEmpty.isi; now rewrite E).
  now injection S.
Qed.

Section RegistrationEffect.

Context `{Bcrypt} `{Jwt}.

(** The parameters of the [INSERT] of a registration. *)
Lemma post_register_cases st e b :
  (truthy (Req.email b) = true /\
   truthy (Req.password b) = true /\
   truthy (Req.name b) = true /\
   (forall u, In u (rows st) ->
      email_or_user_id (param (Req.email b))
        (param (Js.or (Req.user_id b) (Req.email b))) u = false) /\
   exists h,
     bcrypt_hash (Req.password b) 10 (salt e) = Ok h /\
     status (fst (post_register st e b)) = 200 /\
     snd (post_register st e b)
     = insert st (sql_now e)
         (param (Js.or (Req.user_id b)
                   (JStr ("user_" ++ num_to_string (date_now e)))))
         (param (Req.email b)) (param (Req.name b)) (Some h)) \/
  (snd (post_register st e b) = st /\
   (status (fst (post_register st e b)) = 400 \/
    status (fst (post_register st e b)) = 409 \/
    status (fst (post_register st e b)) = 500)).
Proof.
  unfold post_register.
  destruct (truthy (Req.email b)), (truthy (Req.password b)),
    (truthy (Req.name b)); cbn [negb orb try_catch fst snd status];
    try (right; split; [reflexivity | left; reflexivity]).
  destruct (filter _ (rows st)) as [|x xs] eqn:Hf;
    cbn [List.length Nat.ltb Nat.leb try_catch fst snd status].
  - destruct (bcrypt_hash _ _ _) as [h|err] eqn:Hh;
      cbn [bind try_catch fst snd status].
    + left. repeat split. { now apply filter_nil_inv. }
      exists h. repeat split.
    + right. split; [reflexivity | right; right; reflexivity].
  - right. split; [reflexivity | right; left; reflexivity].
Qed.

(** X4: a registration changes the relation only when it is answered 200;
    it then appends one row, whose id is the next of the sequence, whose
    email and name are those of the payload, whose hash is what
    [bcrypt.hash] made of the password with 10 rounds, whose timestamps are
    the clock of the store and whose other columns are NULL, and it leaves
    the rows already stored as they are.  Any other answer is a 400, a 409
    or a 500. *)
Theorem register_effect :
  forall (st : store) (e : env) (b : Req.body),
    (status (fst (post_register st e b)) = 200 /\
     exists row h,
       rows (snd (post_register st e b)) = (rows st ++ [row])%list /\
       bcrypt_hash (Req.password b) 10 (salt e) = Ok h /\
       id row = next_id st /\
       email row = param (Req.email b) /\
       name row = param (Req.name b) /\
       password_hash row = Some h /\
       profile_picture row = None /\ wallet_address row = None /\
       nft_tier row = None /\
       created_at row = sql_now e /\ updated_at row = sql_now e) \/
    (snd (post_register st e b) = st /\
     (status (fst (post_register st e b)) = 400 \/
      status (fst (post_register st e b)) = 409 \/
      status (fst (post_register st e b)) = 500)).
Proof.
  intros st e b.
  destruct (post_register_cases st e b)
    as [(_ & _ & _ & _ & h & Hh & Hs & Hst) | Hno]; [left | right; exact Hno].
  split; [exact Hs|]. rewrite Hst.
  eexists. exists h. split; [reflexivity|]. repeat split. exact Hh.
Qed.

(** X5: once a registration has been answered 200, a registration with the
    same email, a password and a name is answered 409 'User already
    exists', whatever its user_id, and stores nothing. *)
Theorem register_same_email_twice :
  forall (st : store) (e e2 : env) (b b2 : Req.body),
    status (fst (post_register st e b)) = 200 ->
    Req.email b2 = Req.email b ->
    truthy (Req.password b2) = true ->
    truthy (Req.name b2) = true ->
    post_register (snd (post_register st e b)) e2 b2
    = (mkResponse 409 (failure "User already exists"),
       snd (post_register st e b)).
Proof.
  intros st e e2 b b2 Hs Eb Hp Hn.
  destruct (post_register_cases st e b)
    as [(He & _ & _ & _ & h & _ & _ & Hst) | (_ & Hno)].
  2:{ rewrite Hs in Hno. destruct Hno as [X|[X|X]]; discriminate. }
  rewrite Hst. destruct (truthy_param _ He) as [em Hem].
  apply post_register_conflict
    with (u := inserted st (sql_now e)
                 (param (Js.or (Req.user_id b)
                           (JStr ("user_" ++ num_to_string (date_now e)))))
                 (param (Req.email b)) (param (Req.name b)) (Some h)).
  - now rewrite Eb.
  - exact Hp.
  - exact Hn.
  - unfold insert. cbn [rows]. apply in_or_app. right. now left.
  - unfold email_or_user_id, inserted. cbn [email]. rewrite Eb, Hem.
    now rewrite text_eq_same.
Qed.

End RegistrationEffect.

(** ** Registration, then login by user_id *)

Section LoginByUserId.

Context `{Bcrypt} `{Jwt} `{!BcryptLaws}.

(** X7: the login query also matches the user_id column.  After a
    registration with a user_id and a string password, answered 200, a
    login whose email field holds that user_id, with the same password, is
    answered 200 with the token of the new row, provided the user_id is not
    the email of a row stored before. *)
Theorem register_then_login_by_user_id :
  forall (st : store) (e e' : env) (b b' : Req.body) (uid p : string),
    Req.user_id b = JStr uid -> uid <> EmptyString ->
    Req.password b = JStr p ->
    status (fst (post_register st e b)) = 200 ->
    (forall u, In u (rows st) -> email u <> Some uid) ->
    Req.email b' = JStr uid ->
    Req.password b' = JStr p ->
    status (fst (post_login (snd (post_register st e b)) e' b')) = 200 /\
    get "token" (json_body (fst (post_login (snd (post_register st e b)) e' b')))
    = Some (Str ("jwt_" ++ num_to_string (date_now e') ++ "_"
                        ++ num_to_string (next_id st))).
Proof.
  intros st e e' b b' uid p Hu Hne Hp Hs Hemail Eb Pb.
  destruct (post_register_cases st e b)
    as [(_ & Hpt & _ & Hfree & h & Hh & _ & Hst) | (_ & Hno)].
  2:{ rewrite Hs in Hno. destruct Hno as [X|[X|X]]; discriminate. }
  assert (Ht : truthy (JStr uid) = true) by now apply truthy_JStr.
  rewrite Hp in Hh, Hpt.
  destruct (hash_string p 10 (salt e)) as (h' & Hh' & Hhne).
  assert (h' = h) by congruence. subst h'.
  assert (Hht : truthy (JStr h) = true) by now apply truthy_JStr.
  rewrite Hst. unfold Js.or in *. rewrite Hu, Ht in *. cbn [param] in *.
  assert (Hlogin : exists safeUser,
            fst (post_login
                   (insert st (sql_now e) (Some uid) (param (Req.email b))
                      (param (Req.name b)) (Some h)) e' b')
            = mkResponse 200
                (Object [("success", Bool true);
                         ("token",
                          Str ("jwt_" ++ num_to_string (date_now e') ++ "_"
                                      ++ num_to_string (next_id st)));
                         ("user", safeUser);
                         ("message", Str "Login successful")])).
  { unfold post_login. rewrite Eb, Pb, Ht, Hpt. cbn [negb orb param].
    unfold insert. cbn [rows]. rewrite filter_app.
    rewrite (filter_none _ (rows st)).
    2:{ intros u Hin. unfold email_or_user_id.
        rewrite (text_eq_differ _ _ (Hemail u Hin)). cbn [orb].
        specialize (Hfree u Hin). unfold email_or_user_id in Hfree.
        apply orb_false_iff in Hfree as [_ Hf]. exact Hf. }
    cbn [app filter]. unfold email_or_user_id.
    change (user_id (inserted st (sql_now e) (Some uid) (param (Req.email b))
                       (param (Req.name b)) (Some h))) with (Some uid).
    rewrite text_eq_same, orb_true_r.
    unfold inserted. cbn [password_hash id js]. rewrite Hht. cbn [negb].
    rewrite (compare_hash p 10 (salt e) h Hh).
    cbn [bind negb try_catch fst]. eexists. reflexivity. }
  destruct Hlogin as [safeUser ->]. split; reflexivity.
Qed.

End LoginByUserId.

(** ** Registration without a user_id, twice *)

Section FabricatedIds.

Context `{Bcrypt}.

(** X15: two registrations without a user_id, both answered 200, append
    two rows; their made-up user_ids are equal exactly when [Date.now()]
    read the same at both, nothing in the handler telling them apart. *)
Theorem fabricated_user_ids_collide :
  forall (st : store) (e1 e2 : env) (b1 b2 : Req.body),
    truthy (Req.user_id b1) = false ->
    truthy (Req.user_id b2) = false ->
    status (fst (post_register st e1 b1)) = 200 ->
    status (fst (post_register (snd (post_register st e1 b1)) e2 b2)) = 200 ->
    exists u1 u2,
      rows (snd (post_register (snd (post_register st e1 b1)) e2 b2))
      = (rows st ++ [u1; u2])%list /\
      email u1 = param (Req.email b1) /\
      email u2 = param (Req.email b2) /\
      (user_id u1 = user_id u2 <-> date_now e1 = date_now e2).
Proof.
  intros st e1 e2 b1 b2 H1 H2 Hs1 Hs2.
  destruct (post_register_cases st e1 b1)
    as [(_ & _ & _ & _ & h1 & _ & _ & Hst1) | (_ & Hno)].
  2:{ rewrite Hs1 in Hno. destruct Hno as [X|[X|X]]; discriminate. }
  destruct (post_register_cases (snd (post_register st e1 b1)) e2 b2)
    as [(_ & _ & _ & _ & h2 & _ & _ & Hst2) | (_ & Hno)].
  2:{ rewrite Hs2 in Hno. destruct Hno as [X|[X|X]]; discriminate. }
  rewrite Hst2, Hst1. unfold Js.or. rewrite H1, H2. cbn [param].
  unfold insert. cbn [rows next_id].
  rewrite <- app_assoc. cbn [app].
  eexists. eexists. split; [reflexivity|]. unfold inserted. cbn [email user_id].
  repeat split.
  - intros [= E]. now apply num_to_string_inj.
  - intros ->. reflexivity.
Qed.

End FabricatedIds.

(** ** Statements and their parameters *)

(** The parameter of the login query meets two text columns, and each
    parameter of the registration statements meets one column: these
    statements are accepted. *)
Lemma text_statements_accepted {A : Type} (answer : A) :
  pool_query [["email"; "user_id"]] answer = Ok answer /\
  pool_query [["email"]; ["user_id"]] answer = Ok answer /\
  pool_query [["user_id"]; ["email"]; ["name"]; ["password_hash"]] answer
  = Ok answer.
Proof. repeat split. Qed.

(** A parameter that meets [id] and [user_id] cannot be typed. *)
Lemma id_statements_rejected {A : Type} (answer : A) :
  pool_query [["id"; "user_id"]] answer
  = Throw "operator does not exist: character varying = integer" /\
  pool_query [["name"]; ["id"; "user_id"]] answer
  = Throw "operator does not exist: character varying = integer" /\
  pool_query [["name"]; ["profile_picture"]; ["id"; "user_id"]] answer
  = Throw "operator does not exist: character varying = integer".
Proof. repeat split. Qed.

Lemma map_unchanged {A : Type} (f : A -> A) (l : list A) :
  (forall x, In x l -> f x = x) -> map f l = l.
Proof.
  induction l as [|a l IH]; intros Hf; cbn [map]; [reflexivity|].
  rewrite Hf by now left. f_equal. apply IH. intros x Hx. apply Hf. now right.
Qed.

Lemma filter_all {A : Type} (f : A -> bool) (l : list A) :
  (forall x, In x l -> f x = true) -> filter f l = l.
Proof.
  induction l as [|a l IH]; intros Hf; cbn [filter]; [reflexivity|].
  rewrite Hf by now left. f_equal. apply IH. intros x Hx. apply Hf. now right.
Qed.

(** An [UPDATE] whose condition no row satisfies leaves the relation as it
    is. *)
Lemma update_no_match cond assign st :
  filter cond (rows st) = [] -> update cond assign st = st.
Proof.
  intros Hnone. destruct st as [rs n]. unfold update. cbn [rows next_id] in *.
  rewrite Hnone. cbn [map]. rewrite app_nil_r. f_equal.
  apply filter_all. intros u Hu. apply negb_true_iff.
  now apply (filter_nil_inv cond rs Hnone).
Qed.

(** ** Profile updates as the handlers answer them *)

Lemma post_update_profile_answer st e b :
  post_update_profile st e b
  = if truthy (Req.userId b)
    then (mkResponse 500 (failure "Update failed"), st)
    else (mkResponse 400 (failure "User ID is required"), st).
Proof. unfold post_update_profile. destruct (truthy (Req.userId b)); reflexivity. Qed.


Lemma trim_nonempty s : trim s <> EmptyString -> s <> EmptyString.
Proof. intros Ht ->. now apply Ht. Qed.

Lemma length_zero s : (String.length s =? 0)%nat = true <-> s = EmptyString.
Proof.
  rewrite Nat.eqb_eq. destruct s; cbn; split; intros E; congruence.
Qed.

(** The guards of the PUT handler, for a call that would reach it. *)
Lemma put_update_profile_no_token st e authorization b :
  truthy (bearer_token authorization) = false ->
  put_update_profile st e authorization b
  = (mkResponse 401 (failure "Authentication token required"), st).
Proof. intros Ht. unfold put_update_profile. now rewrite Ht. Qed.

Lemma put_update_profile_blank st e authorization b s :
  truthy (bearer_token authorization) = true ->
  Req.name b = JStr s ->
  trim s = EmptyString ->
  put_update_profile st e authorization b
  = (mkResponse 400 (failure "Name is required"), st).
Proof.
  intros Ht Hn Hb. unfold put_update_profile. rewrite Ht, Hn, Hb.
  cbn [negb]. destruct (truthy (JStr s)); reflexivity.
Qed.

Lemma put_update_profile_long st e authorization b s :
  truthy (bearer_token authorization) = true ->
  Req.name b = JStr s ->
  trim s <> EmptyString ->
  (100 < String.length s)%nat ->
  put_update_profile st e authorization b
  = (mkResponse 400 (failure "Name must be 100 characters or less"), st).
Proof.
  intros Ht Hn Hb Hl. unfold put_update_profile. rewrite Ht, Hn.
  cbn [negb].
  assert (Hs : truthy (JStr s) = true)
    by (apply truthy_JStr; now apply trim_nonempty).
  rewrite Hs. cbn [negb].
  destruct (String.length (trim s) =? 0)%nat eqn:E0.
  { apply length_zero in E0. contradiction. }
  apply Nat.ltb_lt in Hl. now rewrite Hl.
Qed.

(** Whatever it answers, the PUT handler leaves the relation as it is: its
    only statement is rejected. *)
Lemma put_update_profile_store st e authorization b :
  snd (put_update_profile st e authorization b) = st.
Proof.
  unfold put_update_profile.
  repeat (cbn [snd try_catch bind];
          match goal with
          | |- context [match ?x with _ => _ end] => destruct x
          end); reflexivity.
Qed.

(** ** The application as served *)

Section Served.

Context `{Bcrypt}.

(** The layer that answers, by method and path: the catch-all of line 293
    takes whatever the five routes registered before it leave, the route of
    line 311 included. *)
Lemma serve_cases st e r :
  serve st e r
  = match req_method r, req_path r with
    | POST, ApiAuthLogin => post_login st e (req_body r)
    | POST, ApiAuthRegister => post_register st e (req_body r)
    | POST, ApiAuthUpdateProfile => post_update_profile st e (req_body r)
    | GET, ApiHealth => get_health st e
    | GET, ApiUsers userId => get_user st userId
    | _, _ => not_found st (originalUrl r)
    end.
Proof. destruct r as [[] [] url a b]; reflexivity. Qed.

Lemma serve_put st e r :
  req_method r = PUT -> serve st e r = not_found st (originalUrl r).
Proof. intros Hm. rewrite serve_cases, Hm. now destruct (req_path r). Qed.

(** C5: POST update-profile as served.  The [UPDATE] puts its one
    parameter [$3] against the numeric [id] and the text [user_id], so that
    PostgreSQL rejects the statement: a request with a userId is answered
    500 'Update failed', a request without one 400 'User ID is required',
    and no request changes a row. *)
Theorem post_update_profile_never_updates :
  forall (st : store) (e : env) (r : request),
    req_method r = POST ->
    req_path r = ApiAuthUpdateProfile ->
    snd (serve st e r) = st /\
    (truthy (Req.userId (req_body r)) = true ->
     fst (serve st e r) = mkResponse 500 (failure "Update failed")) /\
    (truthy (Req.userId (req_body r)) = false ->
     fst (serve st e r) = mkResponse 400 (failure "User ID is required")).
Proof.
  intros st e r Hm Hp.
  rewrite serve_cases, Hm, Hp, post_update_profile_answer.
  destruct (truthy (Req.userId (req_body r))); repeat split;
    intros; discriminate.
Qed.

(** C6: a PUT update-profile request whose name has more than 100
    characters, as served.  The catch-all of line 293 answers it 404
    'Endpoint not found' before the route of line 311 is tried; the
    relation is unchanged. *)
Theorem put_long_name_not_found :
  forall (st : store) (e : env) (r : request) (s : string),
    req_method r = PUT ->
    req_path r = ApiAuthUpdateProfile ->
    Req.name (req_body r) = JStr s ->
    (100 < String.length s)%nat ->
    serve st e r
    = (mkResponse 404
         (Object [("success", Bool false);
                  ("message", Str "Endpoint not found");
                  ("path", Str (originalUrl r))]),
       st).
Proof. intros st e r s Hm _ _ _. now rewrite serve_put. Qed.


(** C8: update-profile called twice with the same request, as served.
    Neither the POST route, whose statement is rejected, nor the PUT route,
    which the catch-all shadows, writes to the relation: after the second
    call it is what it was after the first and before it, and no
    updated_at has moved. *)
Theorem update_profile_twice_changes_nothing :
  forall (st : store) (e1 e2 : env) (r : request),
    req_path r = ApiAuthUpdateProfile ->
    req_method r = POST \/ req_method r = PUT ->
    let st1 := snd (serve st e1 r) in
    let st2 := snd (serve st1 e2 r) in
    st1 = st /\ st2 = st1 /\
    forall i u1 u2,
      nth_error (rows st1) i = Some u1 ->
      nth_error (rows st2) i = Some u2 ->
      name u2 = name u1 /\ updated_at u2 = updated_at u1.
Proof.
  intros st e1 e2 r Hp Hm st1 st2.
  assert (Hsame : forall s e, snd (serve s e r) = s).
  { intros s e. rewrite serve_cases, Hp. destruct Hm as [-> | ->].
    - rewrite post_update_profile_answer.
      now destruct (truthy (Req.userId (req_body r))).
    - reflexivity. }
  subst st1 st2. rewrite !Hsame. repeat split.
  - congruence.
  - congruence.
Qed.

(** C9: a PUT update-profile request with a string name, as served.  The
    catch-all answers it 404 'Endpoint not found': the name is neither
    checked nor trimmed, and no row stores it. *)
Theorem put_name_never_stored :
  forall (st : store) (e : env) (r : request) (s : string),
    req_method r = PUT ->
    req_path r = ApiAuthUpdateProfile ->
    Req.name (req_body r) = JStr s ->
    status (fst (serve st e r)) = 404 /\
    get "message" (json_body (fst (serve st e r)))
    = Some (Str "Endpoint not found") /\
    snd (serve st e r) = st.
Proof.
  intros st e r s Hm _ _. rewrite serve_put by exact Hm. repeat split.
Qed.

End Served.

(** ** What no sequence of statements does *)

Lemma same_identity_refl (u : user) : same_identity u u.
Proof. repeat split. Qed.

Lemma same_identity_trans (u v w : user) :
  same_identity u v -> same_identity v w -> same_identity u w.
Proof.
  unfold same_identity.
  intros (A1 & A2 & A3 & A4 & A5 & A6 & A7) (B1 & B2 & B3 & B4 & B5 & B6 & B7).
  repeat split; congruence.
Qed.

(** An [UPDATE] keeps every row, in its old or in its new version. *)
Lemma update_identity cond assign st u :
  (forall x, same_identity x (assign x)) ->
  In u (rows st) ->
  exists u', In u' (rows (update cond assign st)) /\ same_identity u u'.
Proof.
  intros Ha Hu. unfold update. cbn [rows]. destruct (cond u) eqn:E.
  - exists (assign u). split; [|apply Ha].
    apply in_or_app. right. apply in_map. apply filter_In. now split.
  - exists u. split; [|apply same_identity_refl].
    apply in_or_app. left. apply filter_In. split; [exact Hu|]. now rewrite E.
Qed.

Lemma written_identity st st' u :
  written st st' ->
  In u (rows st) ->
  exists u', In u' (rows st') /\ same_identity u u'.
Proof.
  intros Hw Hu. destruct Hw as [st now p1 p2 p3 p4|st now p1 p2 p3|st now p1 p2].
  - exists u. split; [|apply same_identity_refl].
    unfold insert. cbn [rows]. apply in_or_app. now left.
  - apply update_identity; [|exact Hu]. intros x. repeat split.
  - apply update_identity; [|exact Hu]. intros x. repeat split.
Qed.

Section Sequences.

Context `{Bcrypt}.

(** What a request does to the relation is a sequence of writing
    statements. *)
Lemma serve_statements st e r : statements st (snd (serve st e r)).
Proof.
  assert (Hnone : forall s s', s' = s -> statements s s')
    by (intros s s' ->; constructor).
  rewrite serve_cases. destruct (req_method r), (req_path r);
    try (apply Hnone; reflexivity).
  - destruct (post_register_cases st e (req_body r))
      as [(_ & _ & _ & _ & h & _ & _ & ->) | (-> & _)];
      [|constructor].
    eapply statements_more; [constructor | apply written_insert].
  - apply Hnone. rewrite post_update_profile_answer.
    now destruct (truthy (Req.userId (req_body r))).
Qed.

(** X12: whatever writing statements of the handlers are executed, in any
    number and in any interleaving of the requests that issue them, no row
    is removed, and no row changes its id, user_id, email, password_hash,
    wallet_address, nft_tier or created_at. *)
Theorem rows_persist :
  forall (st st' : store) (u : user),
    statements st st' ->
    In u (rows st) ->
    exists u',
      In u' (rows st') /\
      id u' = id u /\ user_id u' = user_id u /\ email u' = email u /\
      password_hash u' = password_hash u /\
      wallet_address u' = wallet_address u /\ nft_tier u' = nft_tier u /\
      created_at u' = created_at u.
Proof.
  intros st st' u Hs. revert u.
  induction Hs as [st|st st1 st2 _ IH Hw]; intros u Hu.
  - exists u. split; [exact Hu | apply same_identity_refl].
  - destruct (IH u Hu) as (u1 & Hu1 & Hid1).
    destruct (written_identity _ _ u1 Hw Hu1) as (u2 & Hu2 & Hid2).
    exists u2. split; [exact Hu2|].
    exact (same_identity_trans _ _ _ Hid1 Hid2).
Qed.

End Sequences.

(** ** Smaller facts about the answers *)

Section Answers.

Context `{Bcrypt} `{Jwt}.

(** X16: a registration that supplies a user_id and is answered 200 stores
    that user_id, and no row stored before has it. *)
Theorem register_supplied_user_id_fresh :
  forall (st : store) (e : env) (b : Req.body),
    truthy (Req.user_id b) = true ->
    status (fst (post_register st e b)) = 200 ->
    exists row,
      rows (snd (post_register st e b)) = (rows st ++ [row])%list /\
      user_id row = param (Req.user_id b) /\
      forall u, In u (rows st) -> user_id u <> user_id row.
Proof.
  intros st e b Hu Hs.
  destruct (post_register_cases st e b)
    as [(_ & _ & _ & Hfree & h & _ & _ & Hst) | (_ & Hno)].
  2:{ rewrite Hs in Hno. destruct Hno as [X|[X|X]]; discriminate. }
  rewrite Hst. unfold Js.or in *. rewrite Hu in *.
  eexists. split; [reflexivity|]. cbn [inserted user_id]. split; [reflexivity|].
  intros u Hin E. specialize (Hfree u Hin).
  unfold email_or_user_id in Hfree. apply orb_false_iff in Hfree as [_ Hf].
  destruct (truthy_param _ Hu) as [k Hk].
  rewrite E, Hk, text_eq_same in Hf. discriminate.
Qed.

(** X17: the user object of a login answered 200.  [server.js] sends the
    id, user_id, email, name, profile_picture, wallet_address, nft_tier,
    created_at and updated_at of the first row matching the email;
    [api/auth/login.js] sends its id, user_id, email and name. *)
Theorem login_user_object :
  forall (st : store) (e : env) (b : Req.body),
    (status (fst (post_login st e b)) = 200 ->
     exists user,
       login_row st b = Some user /\
       get "user" (json_body (fst (post_login st e b)))
       = Some (select ["id"; "user_id"; "email"; "name"; "profile_picture";
                       "wallet_address"; "nft_tier"; "created_at";
                       "updated_at"] user)) /\
    (status (fst (router_login st e b)) = 200 ->
     exists user,
       login_row st b = Some user /\
       get "user" (json_body (fst (router_login st e b)))
       = Some (select ["id"; "user_id"; "email"; "name"] user)).
Proof.
  intros st e b. unfold post_login, router_login, login_row. split.
  - repeat (cbn [fst status json_body try_catch bind hd_error];
            match goal with
            | |- context [match ?x with _ => _ end] => destruct x
            | |- context [bind ?m _] => destruct m
            end);
      cbn [fst status json_body try_catch bind hd_error]; try discriminate.
    intros _. eexists. split; [reflexivity|].
    rewrite omit_select. reflexivity.
  - repeat (cbn [fst status json_body try_catch bind hd_error];
            match goal with
            | |- context [match ?x with _ => _ end] => destruct x
            | |- context [bind ?m _] => destruct m
            end);
      cbn [fst status json_body try_catch bind hd_error]; try discriminate.
    intros _. eexists. split; [reflexivity|].
    rewrite omit_select. reflexivity.
Qed.

(** X18: an update-profile request, POST or PUT, that is not answered 200
    leaves the relation exactly as it was. *)
Theorem update_profile_only_on_200 :
  forall (st : store) (e : env) (authorization : option string)
         (b : Req.body),
    (status (fst (post_update_profile st e b)) <> 200 ->
     snd (post_update_profile st e b) = st) /\
    (status (fst (put_update_profile st e authorization b)) <> 200 ->
     snd (put_update_profile st e authorization b) = st).
Proof.
  intros st e authorization b. split.
  - unfold post_update_profile.
    destruct (negb (truthy (Req.userId b))); [reflexivity|].
    destruct (pool_query _ (returning _ _ st, update _ _ st))
      as [[found st']|err] eqn:Hq; [|reflexivity].
    unfold pool_query in Hq.
    destruct (forallb parameter_typed _); [|discriminate].
    injection Hq as <- <-. cbn [bind fst snd try_catch]. unfold returning.
    destruct (filter (id_or_user_id (param (Req.userId b))) (rows st))
      as [|u rest] eqn:Hf; cbn [map fst snd status].
    + intros _. now apply update_no_match.
    + intros N. now destruct N.
  - intros _. apply put_update_profile_store.
Qed.


(** X20: the only request that changes the relation is a registration
    answered 200. *)
Theorem only_registration_writes :
  forall (st : store) (e : env) (r : request),
    snd (serve st e r) <> st ->
    req_method r = POST /\
    req_path r = ApiAuthRegister /\
    status (fst (serve st e r)) = 200.
Proof.
  intros st e r. rewrite serve_cases.
  destruct (req_method r), (req_path r); intros Hchg;
    try (now destruct Hchg).
  - destruct (post_register_cases st e (req_body r))
      as [(_ & _ & _ & _ & h & _ & Hs & _) | (Hst & _)].
    + repeat split. exact Hs.
    + now destruct Hchg.
  - exfalso. apply Hchg. rewrite post_update_profile_answer.
    now destruct (truthy (Req.userId (req_body r))).
Qed.

End Answers.

(** * Concrete runs *)

Section Runs.

Import Reference.

#[local] Existing Instance bcrypt.
#[local] Existing Instance jwt.
#[local] Existing Instance reference_bcrypt_laws.

(** C2 as stated fails: the email is new and a password and a name are
    supplied, yet the user_id of the payload is taken and registration
    answers 409. *)
Lemma register_unused_email_conflict :
  let b := register_body "new@x.com" "secret123" "New" (JStr "bob") in
  (forall u, In u (rows store0) -> email u <> Some "new@x.com"%string) /\
  truthy (Req.password b) = true /\
  truthy (Req.name b) = true /\
  status (fst (post_register store0 env0 b)) = 409 /\
  status (fst (post_register store0 env0 b)) <> 200.
Proof.
  cbv zeta. split; [|repeat split; discriminate].
  cbn. intros u [<-|[<-|[]]]; discriminate.
Qed.

Lemma register_then_login_witness :
  let b := register_body "c@x.com" "secret123" "Cat" JUndefined in
  let b' := login_body "c@x.com" "secret123" in
  status (fst (post_register store0 env0 b)) = 200 /\
  status (fst (post_login (snd (post_register store0 env0 b)) env1 b')) = 200 /\
  get "token"
      (json_body (fst (post_login (snd (post_register store0 env0 b)) env1 b')))
  = Some (Str "jwt_1700000060000_3").
Proof.
  cbv zeta.
  apply (register_then_login store0 env0 env1
           (register_body "c@x.com" "secret123" "Cat" JUndefined)
           (login_body "c@x.com" "secret123") "secret123");
    try reflexivity; try discriminate;
    cbn; intros u [<-|[<-|[]]]; discriminate.
Defined.

(** C3 at a request for [bob], whose row has no hash: [server.js] answers
    401 'Account not properly set up', [api/auth/login.js] answers 500. *)
Lemma login_absent_hash_witness :
  let b := login_body "b@x.com" "secret123" in
  post_login store0 env0 b
  = (mkResponse 401 (failure "Account not properly set up"), store0) /\
  router_login store0 env0 b
  = (mkResponse 500 (failure "Server error"), store0).
Proof.
  cbv zeta.
  destruct (login_absent_hash_paths_differ store0 env0
              (login_body "b@x.com" "secret123") bob)
    as (Hserver & _ & Hrouter); try reflexivity.
  split; [exact Hserver|].
  apply (Hrouter "data and hash arguments required"%string). reflexivity.
Defined.

(** C4 as stated fails: the password 123, a number, is wrong for [ann],
    whose row has a stored hash, and both handlers answer 500. *)
Lemma wrong_password_not_a_string :
  let b := Req.mkBody (JStr "a@x.com") (JNum 123)
                      JUndefined JUndefined JUndefined JUndefined in
  login_row store0 b = Some ann /\
  password_hash ann = Some "$2b$secret123"%string /\
  truthy (Req.password b) = true /\
  status (fst (post_login store0 env0 b)) = 500 /\
  status (fst (router_login store0 env0 b)) = 500.
Proof. cbv zeta. repeat split. Qed.

Lemma wrong_string_password_denied_witness :
  let b := login_body "a@x.com" "wrong" in
  status (fst (post_login store0 env0 b)) = 401 /\
  status (fst (router_login store0 env0 b)) = 401.
Proof.
  cbv zeta.
  destruct (wrong_string_password_denied store0 env0
              (login_body "a@x.com" "wrong") ann "$2b$secret123" "wrong")
    as ((Hs & _) & (Hr & _)); try reflexivity; [discriminate|].
  split; assumption.
Defined.

(** C5 at a request for [ann], whose user_id is stored: the answer is 500
    and her row keeps its name and its updated_at. *)
Lemma post_update_profile_never_updates_witness :
  let r := update_profile_request POST None (name_body "ann" "Anna") in
  In ann (rows store0) /\ user_id ann = Some "ann"%string /\
  fst (serve store0 env1 r) = mkResponse 500 (failure "Update failed") /\
  snd (serve store0 env1 r) = store0.
Proof.
  cbv zeta.
  destruct (post_update_profile_never_updates store0 env1
              (update_profile_request POST None (name_body "ann" "Anna")))
    as (Hst & H500 & _); try reflexivity.
  split; [now left|]. split; [reflexivity|].
  split; [now apply H500 | exact Hst].
Defined.

(** C6 at a request with a token and a name of 101 characters. *)
Lemma put_long_name_not_found_witness :
  let r := update_profile_request PUT (Some "Bearer jwt_1_1")
             (name_body "ann" long_name) in
  status (fst (serve store0 env0 r)) = 404 /\
  status (fst (put_update_profile store0 env0 (req_authorization r)
                 (req_body r))) = 400.
Proof.
  cbv zeta. split; [|reflexivity].
  rewrite (put_long_name_not_found store0 env0
             (update_profile_request PUT (Some "Bearer jwt_1_1")
                (name_body "ann" long_name)) long_name);
    try reflexivity.
  vm_compute. lia.
Defined.



(** C8 at two POST requests for [ann], a minute apart: her updated_at is
    after both what it was. *)
Lemma update_profile_twice_changes_nothing_witness :
  let r := update_profile_request POST None (name_body "ann" "Anna") in
  let st1 := snd (serve store0 env0 r) in
  let st2 := snd (serve st1 env1 r) in
  sql_now env0 < sql_now env1 /\
  nth_error (rows st1) 0 = Some ann /\
  nth_error (rows st2) 0 = Some ann /\
  ~ updated_at ann < updated_at ann.
Proof.
  cbv zeta.
  destruct (update_profile_twice_changes_nothing store0 env0 env1
              (update_profile_request POST None (name_body "ann" "Anna")))
    as (H1 & H2 & _); [reflexivity | now left |].
  rewrite H2, H1. split; [reflexivity|]. split; [reflexivity|].
  split; [reflexivity | lia].
Defined.

(** C9 at a request with a token and a name to trim: the answer is 404 and
    [ann] keeps her name. *)
Lemma put_name_never_stored_witness :
  let r := update_profile_request PUT (Some "Bearer jwt_1_1")
             (name_body "ann" " Anna ") in
  status (fst (serve store0 env0 r)) = 404 /\
  snd (serve store0 env0 r) = store0 /\
  name ann <> Some (trim " Anna ").
Proof.
  cbv zeta.
  destruct (put_name_never_stored store0 env0
              (update_profile_request PUT (Some "Bearer jwt_1_1")
                 (name_body "ann" " Anna ")) " Anna ")
    as (Hs & _ & Hst); try reflexivity.
  split; [exact Hs|]. split; [exact Hst | discriminate].
Defined.

(** Registration without a user_id at the instant 1700000000000, when a
    stored row already has the user_id that the handler makes up: the
    relation ends with two rows of that user_id. *)
Lemma register_without_user_id_witness :
  let b := register_body "c@x.com" "secret123" "Cat" JUndefined in
  status (fst (post_register store1 env0 b)) = 200 /\
  snd (post_register store1 env0 b)
  = mkStore [ann; bob; early;
             mkUser 4 (Some "user_1700000000000") (Some "c@x.com")
                    (Some "Cat") (Some "$2b$secret123") None None None
                    1700000000 1700000000] 5.
Proof.
  cbv zeta.
  destruct (register_without_user_id store1 env0
              (register_body "c@x.com" "secret123" "Cat" JUndefined))
    as (_ & Hfresh); try reflexivity.
  apply (Hfresh); [|reflexivity].
  cbn. intros u [<-|[<-|[<-|[]]]]; split; discriminate.
Defined.

End Runs.

(** * Concrete runs of the further properties *)

Section Scenarios.

Import Reference.

#[local] Existing Instance bcrypt.
#[local] Existing Instance jwt.
#[local] Existing Instance reference_bcrypt_laws.

Lemma token_requires_verification_witness :
  status (fst (post_login store0 env0 (login_body "a@x.com" "secret123"))) = 200.
Proof.
  apply (proj1 (token_requires_verification store0 env0
                  (login_body "a@x.com" "secret123"))).
  repeat split. exists ann. repeat split.
Defined.

Lemma unknown_email_like_wrong_password_witness :
  fst (post_login store0 env0 (login_body "nobody@x.com" "secret123"))
  = fst (post_login store0 env0 (login_body "a@x.com" "wrong")) /\
  fst (router_login store0 env0 (login_body "nobody@x.com" "secret123"))
  = fst (router_login store0 env0 (login_body "a@x.com" "wrong")).
Proof.
  apply (unknown_email_like_wrong_password store0 env0
           (login_body "nobody@x.com" "secret123")
           (login_body "a@x.com" "wrong") ann "$2b$secret123");
    try reflexivity.
  discriminate.
Defined.

Lemma login_handlers_agree_witness :
  status (fst (post_login store0 env0 (login_body "a@x.com" "secret123")))
  = status (fst (router_login store0 env0 (login_body "a@x.com" "secret123"))).
Proof.
  apply (login_handlers_agree store0 env0 (login_body "a@x.com" "secret123")).
  - intros user Hrow. vm_compute in Hrow. injection Hrow as <-. reflexivity.
  - intros payload. eexists. reflexivity.
Defined.

Lemma register_same_email_twice_witness :
  let b := register_body "c@x.com" "secret123" "Cat" JUndefined in
  let b2 := register_body "c@x.com" "other" "Kit" (JStr "kit") in
  status (fst (post_register (snd (post_register store0 env0 b)) env1 b2)) = 409.
Proof.
  cbv zeta.
  rewrite (register_same_email_twice store0 env0 env1
             (register_body "c@x.com" "secret123" "Cat" JUndefined)
             (register_body "c@x.com" "other" "Kit" (JStr "kit")));
    reflexivity.
Defined.

Lemma register_then_login_by_user_id_witness :
  let b := register_body "c@x.com" "secret123" "Cat" (JStr "cat") in
  let b' := login_body "cat" "secret123" in
  status (fst (post_login (snd (post_register store0 env0 b)) env1 b')) = 200 /\
  get "token"
      (json_body (fst (post_login (snd (post_register store0 env0 b)) env1 b')))
  = Some (Str "jwt_1700000060000_3").
Proof.
  cbv zeta.
  apply (register_then_login_by_user_id store0 env0 env1
           (register_body "c@x.com" "secret123" "Cat" (JStr "cat"))
           (login_body "cat" "secret123") "cat" "secret123");
    try reflexivity; [discriminate|].
  cbn. intros u [<-|[<-|[]]]; discriminate.
Defined.

Lemma rows_persist_witness :
  let r := mkRequest POST ApiAuthRegister "/api/auth/register" None
             (register_body "c@x.com" "secret123" "Cat" JUndefined) in
  List.length (rows (snd (serve store0 env0 r))) = 3%nat /\
  exists u',
    In u' (rows (snd (serve store0 env0 r))) /\
    id u' = 1 /\ user_id u' = Some "ann"%string /\
    email u' = Some "a@x.com"%string /\
    password_hash u' = Some "$2b$secret123"%string /\
    wallet_address u' = None /\ nft_tier u' = None /\
    created_at u' = 1600000000.
Proof.
  cbv zeta. split; [reflexivity|].
  apply (rows_persist store0 _ ann); [apply serve_statements|].
  now left.
Defined.

Lemma fabricated_user_ids_collide_witness :
  let b1 := register_body "c@x.com" "secret123" "Cat" JUndefined in
  let b2 := register_body "d@x.com" "hunter2" "Dan" JUndefined in
  exists u1 u2,
    rows (snd (post_register (snd (post_register store0 env0 b1)) env0 b2))
    = (rows store0 ++ [u1; u2])%list /\
    email u1 = Some "c@x.com"%string /\
    email u2 = Some "d@x.com"%string /\
    user_id u1 = user_id u2.
Proof.
  cbv zeta.
  destruct (fabricated_user_ids_collide store0 env0 env0
              (register_body "c@x.com" "secret123" "Cat" JUndefined)
              (register_body "d@x.com" "hunter2" "Dan" JUndefined))
    as (u1 & u2 & Hr & H1 & H2 & Hiff); try reflexivity.
  exists u1, u2. repeat split; try assumption. now apply Hiff.
Defined.

Lemma register_supplied_user_id_fresh_witness :
  let b := register_body "c@x.com" "secret123" "Cat" (JStr "cat") in
  exists row,
    rows (snd (post_register store0 env0 b)) = (rows store0 ++ [row])%list /\
    user_id row = Some "cat"%string /\
    forall u, In u (rows store0) -> user_id u <> user_id row.
Proof.
  cbv zeta.
  apply (register_supplied_user_id_fresh store0 env0
           (register_body "c@x.com" "secret123" "Cat" (JStr "cat")));
    reflexivity.
Defined.

Lemma login_user_object_witness :
  exists user,
    login_row store0 (login_body "a@x.com" "secret123") = Some user /\
    get "user" (json_body (fst (router_login store0 env0
                                  (login_body "a@x.com" "secret123"))))
    = Some (select ["id"; "user_id"; "email"; "name"] user).
Proof.
  apply (proj2 (login_user_object store0 env0
                  (login_body "a@x.com" "secret123"))).
  reflexivity.
Defined.

Lemma update_profile_only_on_200_witness :
  snd (post_update_profile store0 env1 (name_body "nobody" "Anna")) = store0.
Proof.
  apply (proj1 (update_profile_only_on_200 store0 env1 None
                  (name_body "nobody" "Anna"))).
  discriminate.
Defined.


Lemma only_registration_writes_witness :
  let r := mkRequest POST ApiAuthRegister "/api/auth/register" None
             (register_body "c@x.com" "secret123" "Cat" JUndefined) in
  status (fst (serve store0 env0 r)) = 200.
Proof.
  cbv zeta.
  apply (only_registration_writes store0 env0
           (mkRequest POST ApiAuthRegister "/api/auth/register" None
              (register_body "c@x.com" "secret123" "Cat" JUndefined))).
  vm_compute. discriminate.
Defined.

End Scenarios.
